(** * Carbon-footprint calculator (src/main.py)

    A shallow embedding of [calculate_carbon_footprint] and of the pydantic
    records it reads and returns.

    Numbers.  The Python function computes on [float] and on unbounded [int].
    Integers are [Z].  Floats sit behind the interface [PyFloat], which has two
    instances:
    - [Binary64]: IEEE 754 binary64 as CPython executes it (Rocq's primitive
      floats), with the conversions [int -> float] and [int / int] correctly
      rounded and raising [OverflowError] as CPython does;
    - [Exact]: rational arithmetic without rounding, the numbers the formulas
      of the program denote.
    Results are proved for every instance or for [Binary64], the arithmetic
    of the program; two order properties are stated over [Exact] and say so;
    concrete runs are evaluated in both.

    State.  Dict objects that the function mutates live in a heap that is
    threaded through every call and outlives it. *)

From Stdlib Require Import ZArith QArith Qround Qabs Lqa Lia.
From Stdlib Require Import Floats.
From stdpp Require Import base option list gmap strings.

Set Default Proof Using "Type".

(** ** Enumerations (main.py, lines 14-68) *)

Module VehicleType.
Inductive t := CAR | SUV | MOTORCYCLE | NONE.
End VehicleType.

Module FuelType.
Inductive t := GASOLINE | DIESEL | ELECTRIC | HYBRID | NONE.
End FuelType.

Module DwellingType.
Inductive t := APARTMENT | TOWNHOUSE | HOUSE.
End DwellingType.

Module HeatingSource.
Inductive t := NATURAL_GAS | ELECTRICITY | OIL | PROPANE.
End HeatingSource.

Module DietType.
Inductive t := MEAT_HEAVY | AVERAGE | PESCATARIAN | VEGETARIAN | VEGAN.
End DietType.

Module UsageLevel.
Inductive t := HIGH | MEDIUM | LOW | NONE.
End UsageLevel.

Module WaterUsageLevel.
Inductive t := HIGH | MEDIUM | LOW.
End WaterUsageLevel.

Module IncomeLevel.
Inductive t := LOW | MEDIUM | HIGH.
End IncomeLevel.

Module Location.
Inductive t := US | EU | CA | CN | IN | AU | OTHER.
End Location.

(** The enumerations are dict keys: each is countable through its position in
    the class body. *)

#[global] Instance VehicleType_eq_dec : EqDecision VehicleType.t.
Proof. solve_decision. Defined.
#[global] Instance VehicleType_countable : Countable VehicleType.t.
Proof.
  refine (inj_countable'
    (fun v => match v with
              | VehicleType.CAR => 0%nat | VehicleType.SUV => 1%nat
              | VehicleType.MOTORCYCLE => 2%nat | VehicleType.NONE => 3%nat end)
    (fun n => match n with
              | 0%nat => VehicleType.CAR | 1%nat => VehicleType.SUV
              | 2%nat => VehicleType.MOTORCYCLE | _ => VehicleType.NONE end) _).
  intros []; reflexivity.
Defined.

#[global] Instance FuelType_eq_dec : EqDecision FuelType.t.
Proof. solve_decision. Defined.
#[global] Instance FuelType_countable : Countable FuelType.t.
Proof.
  refine (inj_countable'
    (fun v => match v with
              | FuelType.GASOLINE => 0%nat | FuelType.DIESEL => 1%nat
              | FuelType.ELECTRIC => 2%nat | FuelType.HYBRID => 3%nat
              | FuelType.NONE => 4%nat end)
    (fun n => match n with
              | 0%nat => FuelType.GASOLINE | 1%nat => FuelType.DIESEL
              | 2%nat => FuelType.ELECTRIC | 3%nat => FuelType.HYBRID
              | _ => FuelType.NONE end) _).
  intros []; reflexivity.
Defined.

#[global] Instance DwellingType_eq_dec : EqDecision DwellingType.t.
Proof. solve_decision. Defined.
#[global] Instance DwellingType_countable : Countable DwellingType.t.
Proof.
  refine (inj_countable'
    (fun v => match v with
              | DwellingType.APARTMENT => 0%nat | DwellingType.TOWNHOUSE => 1%nat
              | DwellingType.HOUSE => 2%nat end)
    (fun n => match n with
              | 0%nat => DwellingType.APARTMENT | 1%nat => DwellingType.TOWNHOUSE
              | _ => DwellingType.HOUSE end) _).
  intros []; reflexivity.
Defined.

#[global] Instance DietType_eq_dec : EqDecision DietType.t.
Proof. solve_decision. Defined.
#[global] Instance DietType_countable : Countable DietType.t.
Proof.
  refine (inj_countable'
    (fun v => match v with
              | DietType.MEAT_HEAVY => 0%nat | DietType.AVERAGE => 1%nat
              | DietType.PESCATARIAN => 2%nat | DietType.VEGETARIAN => 3%nat
              | DietType.VEGAN => 4%nat end)
    (fun n => match n with
              | 0%nat => DietType.MEAT_HEAVY | 1%nat => DietType.AVERAGE
              | 2%nat => DietType.PESCATARIAN | 3%nat => DietType.VEGETARIAN
              | _ => DietType.VEGAN end) _).
  intros []; reflexivity.
Defined.

#[global] Instance UsageLevel_eq_dec : EqDecision UsageLevel.t.
Proof. solve_decision. Defined.
#[global] Instance UsageLevel_countable : Countable UsageLevel.t.
Proof.
  refine (inj_countable'
    (fun v => match v with
              | UsageLevel.HIGH => 0%nat | UsageLevel.MEDIUM => 1%nat
              | UsageLevel.LOW => 2%nat | UsageLevel.NONE => 3%nat end)
    (fun n => match n with
              | 0%nat => UsageLevel.HIGH | 1%nat => UsageLevel.MEDIUM
              | 2%nat => UsageLevel.LOW | _ => UsageLevel.NONE end) _).
  intros []; reflexivity.
Defined.

#[global] Instance WaterUsageLevel_eq_dec : EqDecision WaterUsageLevel.t.
Proof. solve_decision. Defined.
#[global] Instance WaterUsageLevel_countable : Countable WaterUsageLevel.t.
Proof.
  refine (inj_countable'
    (fun v => match v with
              | WaterUsageLevel.HIGH => 0%nat | WaterUsageLevel.MEDIUM => 1%nat
              | WaterUsageLevel.LOW => 2%nat end)
    (fun n => match n with
              | 0%nat => WaterUsageLevel.HIGH | 1%nat => WaterUsageLevel.MEDIUM
              | _ => WaterUsageLevel.LOW end) _).
  intros []; reflexivity.
Defined.

#[global] Instance IncomeLevel_eq_dec : EqDecision IncomeLevel.t.
Proof. solve_decision. Defined.
#[global] Instance IncomeLevel_countable : Countable IncomeLevel.t.
Proof.
  refine (inj_countable'
    (fun v => match v with
              | IncomeLevel.LOW => 0%nat | IncomeLevel.MEDIUM => 1%nat
              | IncomeLevel.HIGH => 2%nat end)
    (fun n => match n with
              | 0%nat => IncomeLevel.LOW | 1%nat => IncomeLevel.MEDIUM
              | _ => IncomeLevel.HIGH end) _).
  intros []; reflexivity.
Defined.

#[global] Instance Location_eq_dec : EqDecision Location.t.
Proof. solve_decision. Defined.
#[global] Instance Location_countable : Countable Location.t.
Proof.
  refine (inj_countable'
    (fun v => match v with
              | Location.US => 0%nat | Location.EU => 1%nat | Location.CA => 2%nat
              | Location.CN => 3%nat | Location.IN => 4%nat | Location.AU => 5%nat
              | Location.OTHER => 6%nat end)
    (fun n => match n with
              | 0%nat => Location.US | 1%nat => Location.EU | 2%nat => Location.CA
              | 3%nat => Location.CN | 4%nat => Location.IN | 5%nat => Location.AU
              | _ => Location.OTHER end) _).
  intros []; reflexivity.
Defined.

(** ** Exceptions and results *)

(** The builtin exceptions the function body can raise. *)
Inductive exn := ZeroDivisionError | OverflowError | KeyError.

Inductive result (A : Type) :=
| Return (a : A)
| Raise (e : exn).
Arguments Return {A} a.
Arguments Raise {A} e.

#[global] Instance result_ret : MRet result := fun _ a => Return a.
#[global] Instance result_bind : MBind result := fun _ _ k r =>
  match r with
  | Return a => k a
  | Raise e => Raise e
  end.

(** [d[k]]: a subscript raises [KeyError] on a missing key. *)
Definition getitem `{Countable K} {V} (d : gmap K V) (k : K) : result V :=
  match d !! k with
  | Some v => Return v
  | None => Raise KeyError
  end.

(** [d.get(k, dflt)]. *)
Definition get `{Countable K} {V} (d : gmap K V) (k : K) (dflt : V) : V :=
  default dflt (d !! k).

(** ** The float interface *)

Class PyFloat (F : Type) := {
  (** the float nearest to a rational: decimal and integer literals, and the
      value of [float(n)] and [n / m] on integers when they do not overflow *)
  lit : Q -> F;
  (** the rational is too large in magnitude for the float type *)
  overflows : Q -> bool;
  add : F -> F -> F;
  sub : F -> F -> F;
  mul : F -> F -> F;
  (** [x / y] for [y] nonzero; every float divisor in the function is a
      nonzero literal, so Python's zero check never fires on it *)
  div : F -> F -> F;
  ltb : F -> F -> bool;
  leb : F -> F -> bool;
  (** [round(x, 2)] *)
  round2 : F -> F;
}.
Arguments lit {F _} q%_Q.

Declare Scope py_scope.
Delimit Scope py_scope with py.
Infix "+" := add : py_scope.
Infix "-" := sub : py_scope.
Infix "*" := mul : py_scope.
Infix "/" := div : py_scope.

(** [min(a, b)] on two arguments: [b] when [b < a], else [a]. *)
Definition py_min `{PyFloat F} (a b : F) : F := if ltb b a then b else a.

(** [float(n)] for an [int], as [int * float] performs it: [OverflowError]
    when the integer is too large to convert. *)
Definition float_of_int `{PyFloat F} (n : Z) : result F :=
  if overflows (inject_Z n) then Raise OverflowError
  else Return (lit (inject_Z n)).

(** [a / b] on two [int]s: the correctly rounded quotient,
    [ZeroDivisionError] on a zero divisor, [OverflowError] when the quotient
    is too large for a float.  (CPython returns the negative zero for a zero
    dividend and a negative divisor; the function divides 1 by an [int] and
    an [int] by 21, where that case does not occur.) *)
Definition int_truediv `{PyFloat F} (a b : Z) : result F :=
  if (b =? 0)%Z then Raise ZeroDivisionError
  else
    let q := (inject_Z a / inject_Z b)%Q in
    if overflows q then Raise OverflowError else Return (lit q).

(** ** Records (main.py, lines 71-114) *)

Record CarbonFootprintInput {F : Type} := {
  (* Transportation *)
  vehicle_type : VehicleType.t;
  vehicle_fuel_type : FuelType.t;
  miles_driven_weekly : F;
  fuel_efficiency_mpg : F;
  public_transit_hours_weekly : F;
  flights_short_haul : Z;
  flights_medium_haul : Z;
  flights_long_haul : Z;
  (* Home Energy *)
  home_size_sqft : F;
  dwelling_type : DwellingType.t;
  num_residents : Z;
  heating_source : HeatingSource.t;
  electricity_kwh_monthly : F;
  natural_gas_therms_monthly : F;
  fuel_oil_gallons_monthly : F;
  renewable_energy_percentage : F;
  (* Food Choices *)
  diet_type : DietType.t;
  local_food_percentage : F;
  food_waste_percentage : F;
  meals_eaten_out_weekly : Z;
  (* Consumer Habits *)
  new_clothes_items_yearly : Z;
  new_electronics_items_yearly : Z;
  recycling_rate : F;
  single_use_plastic_level : UsageLevel.t;
  water_consumption_level : WaterUsageLevel.t;
  (* Secondary Information *)
  location : Location.t;
  income_level : IncomeLevel.t;
}.
Arguments CarbonFootprintInput F : clear implicits.

Record CarbonFootprintResult {F : Type} := {
  total_carbon_footprint : F;
  transport_emissions : F;
  home_emissions : F;
  food_emissions : F;
  consumer_emissions : F;
}.
Arguments CarbonFootprintResult F : clear implicits.

(** ** The heap and the monad of a call *)

(** The dict objects allocated so far, by address.  The only dicts the
    function ever writes to are the inner dicts of
    [vehicle_emission_factors], keyed by fuel type. *)
Abbreviation heap F := (list (gmap FuelType.t F)).

(** A computation reads and extends the heap and returns or raises; a raised
    exception leaves the heap as it is at that point. *)
Definition M (F A : Type) : Type := heap F -> result A * heap F.

#[global] Instance M_ret {F} : MRet (M F) := fun _ a h => (Return a, h).
#[global] Instance M_bind {F} : MBind (M F) := fun _ _ k m h =>
  match m h with
  | (Return a, h') => k a h'
  | (Raise e, h') => (Raise e, h')
  end.

(** A step of the function that does not touch the heap. *)
Definition lift {F A} (r : result A) : M F A := fun h => (r, h).

(** A dict display allocates a new object. *)
Definition alloc {F} (d : gmap FuelType.t F) : M F nat :=
  fun h => (Return (length h), h ++ [d]).

(** Reading the dict at an address. *)
Definition deref {F} (r : nat) : M F (gmap FuelType.t F) :=
  fun h => (Return (default ∅ (h !! r)), h).

(** Writing the dict at an address, in place. *)
Definition store {F} (r : nat) (d : gmap FuelType.t F) : M F unit :=
  fun h => (Return tt, <[r := d]> h).

(** The value a call returns or the exception it raises, from heap [h]. *)
Definition outcome {F A} (m : M F A) (h : heap F) : result A := fst (m h).

(** ** The calculator (main.py, lines 117-302)

    An [int] literal that meets a float operand is converted to the float of
    the same value: [lit 52] is [52.0], and the [0] that initialises
    [transport_emissions] is [0.0] from its first [+=] on.  The body is split
    at its four section comments; the statements keep their order, so the
    first exception in program order is the one raised. *)

Section Calculator.
Context {F : Type} `{PyFloat F}.
Local Open Scope py_scope.

(** Lines 132-168: the emission factor in kg CO2e per mile of the vehicle
    block.  The dict display builds three inner dicts and the outer dict that
    refers to them; for an electric vehicle the inner dict of the vehicle is
    updated in place before the lookup. *)
Definition vehicle_emission_factor (input_data : CarbonFootprintInput F) : M F F :=
  car ← alloc {[ FuelType.GASOLINE := lit 0.33;
                 FuelType.DIESEL := lit 0.31;
                 FuelType.HYBRID := lit 0.19;
                 FuelType.ELECTRIC := lit 0.1 ]};
  suv ← alloc {[ FuelType.GASOLINE := lit 0.44;
                 FuelType.DIESEL := lit 0.42;
                 FuelType.HYBRID := lit 0.29;
                 FuelType.ELECTRIC := lit 0.12 ]};
  motorcycle ← alloc {[ FuelType.GASOLINE := lit 0.18;
                        FuelType.DIESEL := lit 0.0;
                        FuelType.HYBRID := lit 0.0;
                        FuelType.ELECTRIC := lit 0.05 ]};
  let vehicle_emission_factors : gmap VehicleType.t nat :=
    {[ VehicleType.CAR := car;
       VehicleType.SUV := suv;
       VehicleType.MOTORCYCLE := motorcycle ]} in
  let electricity_factors : gmap Location.t F :=
    {[ Location.US := lit 1.0;
       Location.EU := lit 0.7;
       Location.CA := lit 0.5;
       Location.CN := lit 1.5;
       Location.IN := lit 1.4;
       Location.AU := lit 1.2 ]} in
  let location_factor := get electricity_factors (location input_data) (lit 1.0) in
  _ ← (if decide (vehicle_fuel_type input_data = FuelType.ELECTRIC) then
         r ← lift (getitem vehicle_emission_factors (vehicle_type input_data));
         d ← deref r;
         v ← lift (getitem d FuelType.ELECTRIC);
         store r (<[FuelType.ELECTRIC := v * location_factor]> d)
       else mret tt);
  d ← match vehicle_emission_factors !! vehicle_type input_data with
      | Some r => deref r
      | None => mret ∅
      end;
  mret (get d (vehicle_fuel_type input_data) (lit 0.33)).

(** Lines 119-185, the value of [transport_emissions] at line 186. *)
Definition transport_subtotal (input_data : CarbonFootprintInput F) : M F F :=
  let transport_emissions := lit 0 in
  transport_emissions ←
    (if decide (vehicle_type input_data ≠ VehicleType.NONE) then
       let annual_miles := miles_driven_weekly input_data * lit 52 in
       emission_factor ← vehicle_emission_factor input_data;
       mret (transport_emissions + annual_miles * emission_factor / lit 1000)
     else mret transport_emissions);
  let public_transit_annual_hours :=
    public_transit_hours_weekly input_data * lit 52 in
  let public_transit_emissions_factor := lit 0.05 in
  let transport_emissions :=
    transport_emissions
    + (public_transit_annual_hours / lit 100) * public_transit_emissions_factor in
  let flight_emission_factors : gmap string F :=
    {[ "short" := lit 0.15; "medium" := lit 0.4; "long" := lit 1.5 ]} in
  lift (
    short_factor ← getitem flight_emission_factors "short";
    short ← float_of_int (flights_short_haul input_data);
    medium_factor ← getitem flight_emission_factors "medium";
    medium ← float_of_int (flights_medium_haul input_data);
    long_factor ← getitem flight_emission_factors "long";
    long ← float_of_int (flights_long_haul input_data);
    mret (transport_emissions
          + (short * short_factor + medium * medium_factor + long * long_factor))).

(** Lines 190-226, the value of [home_emissions]. *)
Definition home_subtotal (input_data : CarbonFootprintInput F) : result F :=
  resident_factor ← int_truediv 1 (num_residents input_data);
  let electricity_annual_kwh := electricity_kwh_monthly input_data * lit 12 in
  let electricity_emission_factor :=
    get ({[ Location.US := lit 0.0004;
            Location.EU := lit 0.0003;
            Location.CA := lit 0.00015;
            Location.CN := lit 0.0007;
            Location.IN := lit 0.0008;
            Location.AU := lit 0.0007 ]} : gmap Location.t F)
        (location input_data) (lit 0.0004) in
  let electricity_emissions :=
    electricity_annual_kwh * electricity_emission_factor
    * (lit 1 - renewable_energy_percentage input_data / lit 100) in
  let natural_gas_annual_therms := natural_gas_therms_monthly input_data * lit 12 in
  let natural_gas_emission_factor := lit 0.0053 in
  let natural_gas_emissions := natural_gas_annual_therms * natural_gas_emission_factor in
  let fuel_oil_annual_gallons := fuel_oil_gallons_monthly input_data * lit 12 in
  let fuel_oil_emission_factor := lit 0.01 in
  let fuel_oil_emissions := fuel_oil_annual_gallons * fuel_oil_emission_factor in
  let home_size_factor := py_min (home_size_sqft input_data / lit 1500) (lit 2.0) in
  let dwelling_factor :=
    get ({[ DwellingType.APARTMENT := lit 0.8;
            DwellingType.TOWNHOUSE := lit 1.0;
            DwellingType.HOUSE := lit 1.2 ]} : gmap DwellingType.t F)
        (dwelling_type input_data) (lit 1.0) in
  mret ((electricity_emissions + natural_gas_emissions + fuel_oil_emissions)
        * resident_factor * home_size_factor * dwelling_factor).

(** Lines 231-250, the value of [food_emissions]. *)
Definition food_subtotal (input_data : CarbonFootprintInput F) : result F :=
  let diet_emission_factors : gmap DietType.t F :=
    {[ DietType.MEAT_HEAVY := lit 2.5;
       DietType.AVERAGE := lit 1.9;
       DietType.PESCATARIAN := lit 1.7;
       DietType.VEGETARIAN := lit 1.4;
       DietType.VEGAN := lit 1.1 ]} in
  let base_food_emissions :=
    get diet_emission_factors (diet_type input_data) (lit 1.9) in
  let local_food_adjustment :=
    lit 1 - (local_food_percentage input_data / lit 100 * lit 0.2) in
  let food_waste_adjustment :=
    lit 1 + (food_waste_percentage input_data / lit 100 * lit 0.3) in
  meals_ratio ← int_truediv (meals_eaten_out_weekly input_data) 21;
  let restaurant_factor := lit 1 + (meals_ratio * lit 0.2) in
  mret (base_food_emissions * local_food_adjustment * food_waste_adjustment
        * restaurant_factor).

(** Lines 255-290, the value of [consumer_emissions]. *)
Definition consumer_subtotal (input_data : CarbonFootprintInput F) : result F :=
  let clothing_emission_factor := lit 0.01 in
  new_clothes ← float_of_int (new_clothes_items_yearly input_data);
  let clothing_emissions := new_clothes * clothing_emission_factor in
  let electronics_emission_factor := lit 0.08 in
  new_electronics ← float_of_int (new_electronics_items_yearly input_data);
  let electronics_emissions := new_electronics * electronics_emission_factor in
  let recycling_factor := lit 1 - (recycling_rate input_data / lit 100 * lit 0.15) in
  let plastic_factors : gmap UsageLevel.t F :=
    {[ UsageLevel.HIGH := lit 0.2;
       UsageLevel.MEDIUM := lit 0.15;
       UsageLevel.LOW := lit 0.1;
       UsageLevel.NONE := lit 0.05 ]} in
  let plastic_emissions :=
    get plastic_factors (single_use_plastic_level input_data) (lit 0.15) in
  let water_factors : gmap WaterUsageLevel.t F :=
    {[ WaterUsageLevel.HIGH := lit 0.3;
       WaterUsageLevel.MEDIUM := lit 0.2;
       WaterUsageLevel.LOW := lit 0.1 ]} in
  let water_emissions :=
    get water_factors (water_consumption_level input_data) (lit 0.2) in
  let income_factors : gmap IncomeLevel.t F :=
    {[ IncomeLevel.LOW := lit 0.7;
       IncomeLevel.MEDIUM := lit 1.0;
       IncomeLevel.HIGH := lit 1.5 ]} in
  let income_factor := get income_factors (income_level input_data) (lit 1.0) in
  mret ((clothing_emissions + electronics_emissions + plastic_emissions
         + water_emissions) * recycling_factor * income_factor).

Definition calculate_carbon_footprint (input_data : CarbonFootprintInput F)
  : M F (CarbonFootprintResult F) :=
  transport_emissions ← transport_subtotal input_data;
  home_emissions ← lift (home_subtotal input_data);
  food_emissions ← lift (food_subtotal input_data);
  consumer_emissions ← lift (consumer_subtotal input_data);
  let total_emissions :=
    transport_emissions + home_emissions + food_emissions + consumer_emissions in
  mret {| total_carbon_footprint := round2 total_emissions;
          transport_emissions := round2 transport_emissions;
          home_emissions := round2 home_emissions;
          food_emissions := round2 food_emissions;
          consumer_emissions := round2 consumer_emissions |}.

End Calculator.

(** ** Instance: exact rational arithmetic *)

(** The integer nearest to a rational, ties to the even one. *)
Definition round_half_even (q : Q) : Z :=
  let f := Qfloor q in
  match (q - inject_Z f ?= 1 # 2)%Q with
  | Lt => f
  | Gt => (f + 1)%Z
  | Eq => if Z.even f then f else (f + 1)%Z
  end.

(** [round(x, 2)] on an exact number: the nearest multiple of 1/100. *)
Definition round2_exact (q : Q) : Q := round_half_even (q * 100) # 100.

#[global] Instance Exact : PyFloat Q := {|
  lit q := q;
  overflows _ := false;
  add := Qplus;
  sub := Qminus;
  mul := Qmult;
  div := Qdiv;
  ltb x y := negb (Qle_bool y x);
  leb := Qle_bool;
  round2 := round2_exact;
|}.

(** ** Instance: IEEE 754 binary64 *)

(** The binary64 float nearest to [n / d], ties to even: the division of the
    specification of floats, which rounds the exact quotient once whatever the
    size of the two integers. *)
Definition nearest (q : Q) : float :=
  match Qnum q with
  | Z0 => PrimFloat.zero
  | Zpos n =>
      SF2Prim (SFdiv prec emax (S754_finite false n 0) (S754_finite false (Qden q) 0))
  | Zneg n =>
      SF2Prim (SFdiv prec emax (S754_finite true n 0) (S754_finite false (Qden q) 0))
  end.

(** The least magnitude that rounds to infinity: halfway between the largest
    finite float, 2^1024 - 2^971, and 2^1024. *)
Definition overflow_threshold : Z := 2 ^ 1024 - 2 ^ 970.

Definition overflows_binary64 (q : Q) : bool :=
  Qle_bool (inject_Z overflow_threshold) (Qabs q).

(** The exact value of a finite float. *)
Definition exact_value (s : bool) (m : positive) (e : Z) : Q :=
  let sm := if s then Zneg m else Zpos m in
  match e with
  | Z0 => sm # 1
  | Zpos k => (sm * 2 ^ Zpos k) # 1
  | Zneg k => sm # (2 ^ k)
  end.

(** [round(x, 2)] on a float (CPython, float.__round__): infinities and NaN
    are returned as they are; a finite [x] is printed with two digits after
    the point, correctly rounded from its exact value with ties to even, and
    the decimal is read back as the nearest float.  A result of zero keeps the
    sign of [x]. *)
Definition round2_binary64 (x : float) : float :=
  match Prim2SF x with
  | S754_finite s m e =>
      let n := round_half_even (exact_value s m e * 100) in
      if (n =? 0)%Z then (if s then PrimFloat.neg_zero else PrimFloat.zero)
      else nearest (n # 100)
  | _ => x
  end.

#[global] Instance Binary64 : PyFloat float := {|
  lit := nearest;
  overflows := overflows_binary64;
  add := PrimFloat.add;
  sub := PrimFloat.sub;
  mul := PrimFloat.mul;
  div := PrimFloat.div;
  ltb := PrimFloat.ltb;
  leb := PrimFloat.leb;
  round2 := round2_binary64;
|}.

(** ** Inputs: constraints, variations, sessions *)

Section Inputs.
Context {F : Type} `{PyFloat F}.

Definition percentage (x : F) : bool := leb (lit 0) x && leb x (lit 100).

(** The numeric bounds that the external validation enforces on an input
    record; the enumerations are closed by their types. *)
Definition valid_input (i : CarbonFootprintInput F) : bool :=
  leb (lit 0) (miles_driven_weekly i)
  && leb (lit 0) (public_transit_hours_weekly i)
  && (0 <=? flights_short_haul i)%Z
  && (0 <=? flights_medium_haul i)%Z
  && (0 <=? flights_long_haul i)%Z
  && ltb (lit 0) (home_size_sqft i)
  && (1 <=? num_residents i)%Z
  && leb (lit 0) (electricity_kwh_monthly i)
  && leb (lit 0) (natural_gas_therms_monthly i)
  && leb (lit 0) (fuel_oil_gallons_monthly i)
  && percentage (renewable_energy_percentage i)
  && percentage (local_food_percentage i)
  && percentage (food_waste_percentage i)
  && (0 <=? meals_eaten_out_weekly i)%Z
  && (0 <=? new_clothes_items_yearly i)%Z
  && (0 <=? new_electronics_items_yearly i)%Z
  && percentage (recycling_rate i).

(** Every float that the function makes from the integers of the record,
    by conversion or by division, is within the range of the float type. *)
Definition ints_convert (i : CarbonFootprintInput F) : bool :=
  negb (overflows (inject_Z (flights_short_haul i)))
  && negb (overflows (inject_Z (flights_medium_haul i)))
  && negb (overflows (inject_Z (flights_long_haul i)))
  && negb (overflows (inject_Z 1 / inject_Z (num_residents i)))
  && negb (overflows (inject_Z (meals_eaten_out_weekly i) / inject_Z 21))
  && negb (overflows (inject_Z (new_clothes_items_yearly i)))
  && negb (overflows (inject_Z (new_electronics_items_yearly i))).

Definition with_location (i : CarbonFootprintInput F) (l : Location.t)
  : CarbonFootprintInput F :=
  {| vehicle_type := vehicle_type i;
     vehicle_fuel_type := vehicle_fuel_type i;
     miles_driven_weekly := miles_driven_weekly i;
     fuel_efficiency_mpg := fuel_efficiency_mpg i;
     public_transit_hours_weekly := public_transit_hours_weekly i;
     flights_short_haul := flights_short_haul i;
     flights_medium_haul := flights_medium_haul i;
     flights_long_haul := flights_long_haul i;
     home_size_sqft := home_size_sqft i;
     dwelling_type := dwelling_type i;
     num_residents := num_residents i;
     heating_source := heating_source i;
     electricity_kwh_monthly := electricity_kwh_monthly i;
     natural_gas_therms_monthly := natural_gas_therms_monthly i;
     fuel_oil_gallons_monthly := fuel_oil_gallons_monthly i;
     renewable_energy_percentage := renewable_energy_percentage i;
     diet_type := diet_type i;
     local_food_percentage := local_food_percentage i;
     food_waste_percentage := food_waste_percentage i;
     meals_eaten_out_weekly := meals_eaten_out_weekly i;
     new_clothes_items_yearly := new_clothes_items_yearly i;
     new_electronics_items_yearly := new_electronics_items_yearly i;
     recycling_rate := recycling_rate i;
     single_use_plastic_level := single_use_plastic_level i;
     water_consumption_level := water_consumption_level i;
     location := l;
     income_level := income_level i |}.

Definition with_recycling_rate (i : CarbonFootprintInput F) (r : F)
  : CarbonFootprintInput F :=
  {| vehicle_type := vehicle_type i;
     vehicle_fuel_type := vehicle_fuel_type i;
     miles_driven_weekly := miles_driven_weekly i;
     fuel_efficiency_mpg := fuel_efficiency_mpg i;
     public_transit_hours_weekly := public_transit_hours_weekly i;
     flights_short_haul := flights_short_haul i;
     flights_medium_haul := flights_medium_haul i;
     flights_long_haul := flights_long_haul i;
     home_size_sqft := home_size_sqft i;
     dwelling_type := dwelling_type i;
     num_residents := num_residents i;
     heating_source := heating_source i;
     electricity_kwh_monthly := electricity_kwh_monthly i;
     natural_gas_therms_monthly := natural_gas_therms_monthly i;
     fuel_oil_gallons_monthly := fuel_oil_gallons_monthly i;
     renewable_energy_percentage := renewable_energy_percentage i;
     diet_type := diet_type i;
     local_food_percentage := local_food_percentage i;
     food_waste_percentage := food_waste_percentage i;
     meals_eaten_out_weekly := meals_eaten_out_weekly i;
     new_clothes_items_yearly := new_clothes_items_yearly i;
     new_electronics_items_yearly := new_electronics_items_yearly i;
     recycling_rate := r;
     single_use_plastic_level := single_use_plastic_level i;
     water_consumption_level := water_consumption_level i;
     location := location i;
     income_level := income_level i |}.

(** Two records that agree on every field other than [fuel_efficiency_mpg]
    and [heating_source]. *)
Definition differ_only_in_mpg_and_heating (i j : CarbonFootprintInput F) : Prop :=
  vehicle_type i = vehicle_type j
  /\ vehicle_fuel_type i = vehicle_fuel_type j
  /\ miles_driven_weekly i = miles_driven_weekly j
  /\ public_transit_hours_weekly i = public_transit_hours_weekly j
  /\ flights_short_haul i = flights_short_haul j
  /\ flights_medium_haul i = flights_medium_haul j
  /\ flights_long_haul i = flights_long_haul j
  /\ home_size_sqft i = home_size_sqft j
  /\ dwelling_type i = dwelling_type j
  /\ num_residents i = num_residents j
  /\ electricity_kwh_monthly i = electricity_kwh_monthly j
  /\ natural_gas_therms_monthly i = natural_gas_therms_monthly j
  /\ fuel_oil_gallons_monthly i = fuel_oil_gallons_monthly j
  /\ renewable_energy_percentage i = renewable_energy_percentage j
  /\ diet_type i = diet_type j
  /\ local_food_percentage i = local_food_percentage j
  /\ food_waste_percentage i = food_waste_percentage j
  /\ meals_eaten_out_weekly i = meals_eaten_out_weekly j
  /\ new_clothes_items_yearly i = new_clothes_items_yearly j
  /\ new_electronics_items_yearly i = new_electronics_items_yearly j
  /\ recycling_rate i = recycling_rate j
  /\ single_use_plastic_level i = single_use_plastic_level j
  /\ water_consumption_level i = water_consumption_level j
  /\ location i = location j
  /\ income_level i = income_level j.

(** Two records that agree on every field other than [miles_driven_weekly]
    and [vehicle_fuel_type]. *)
Definition differ_only_in_miles_and_fuel (i j : CarbonFootprintInput F) : Prop :=
  vehicle_type i = vehicle_type j
  /\ fuel_efficiency_mpg i = fuel_efficiency_mpg j
  /\ public_transit_hours_weekly i = public_transit_hours_weekly j
  /\ flights_short_haul i = flights_short_haul j
  /\ flights_medium_haul i = flights_medium_haul j
  /\ flights_long_haul i = flights_long_haul j
  /\ home_size_sqft i = home_size_sqft j
  /\ dwelling_type i = dwelling_type j
  /\ num_residents i = num_residents j
  /\ heating_source i = heating_source j
  /\ electricity_kwh_monthly i = electricity_kwh_monthly j
  /\ natural_gas_therms_monthly i = natural_gas_therms_monthly j
  /\ fuel_oil_gallons_monthly i = fuel_oil_gallons_monthly j
  /\ renewable_energy_percentage i = renewable_energy_percentage j
  /\ diet_type i = diet_type j
  /\ local_food_percentage i = local_food_percentage j
  /\ food_waste_percentage i = food_waste_percentage j
  /\ meals_eaten_out_weekly i = meals_eaten_out_weekly j
  /\ new_clothes_items_yearly i = new_clothes_items_yearly j
  /\ new_electronics_items_yearly i = new_electronics_items_yearly j
  /\ recycling_rate i = recycling_rate j
  /\ single_use_plastic_level i = single_use_plastic_level j
  /\ water_consumption_level i = water_consumption_level j
  /\ location i = location j
  /\ income_level i = income_level j.

(** The heap that a sequence of calls leaves behind, whatever each call
    returned or raised. *)
Definition heap_after (calls : list (CarbonFootprintInput F)) (h : heap F) : heap F :=
  fold_left (fun h c => snd (calculate_carbon_footprint c h)) calls h.

(** The outcomes of a sequence of calls served one after the other. *)
Fixpoint serve (calls : list (CarbonFootprintInput F)) (h : heap F)
  : list (result (CarbonFootprintResult F)) :=
  match calls with
  | [] => []
  | c :: rest =>
      let '(r, h') := calculate_carbon_footprint c h in
      r :: serve rest h'
  end.

End Inputs.

(** ** The formulas of the specification and the heap-free reading *)

Section Formulas.
Context {F : Type} `{PyFloat F}.
Local Open Scope py_scope.

(** The fixed (vehicle, fuel) table of the specification, in kg CO2e per
    mile; a missing combination defaults to 0.33. *)
Definition spec_base_factor (v : VehicleType.t) (f : FuelType.t) : F :=
  match v, f with
  | VehicleType.CAR, FuelType.GASOLINE => lit 0.33
  | VehicleType.CAR, FuelType.DIESEL => lit 0.31
  | VehicleType.CAR, FuelType.HYBRID => lit 0.19
  | VehicleType.CAR, FuelType.ELECTRIC => lit 0.1
  | VehicleType.SUV, FuelType.GASOLINE => lit 0.44
  | VehicleType.SUV, FuelType.DIESEL => lit 0.42
  | VehicleType.SUV, FuelType.HYBRID => lit 0.29
  | VehicleType.SUV, FuelType.ELECTRIC => lit 0.12
  | VehicleType.MOTORCYCLE, FuelType.GASOLINE => lit 0.18
  | VehicleType.MOTORCYCLE, FuelType.DIESEL => lit 0.0
  | VehicleType.MOTORCYCLE, FuelType.HYBRID => lit 0.0
  | VehicleType.MOTORCYCLE, FuelType.ELECTRIC => lit 0.05
  | _, _ => lit 0.33
  end.

(** The pairs that are entries of that table. *)
Definition in_factor_table (v : VehicleType.t) (f : FuelType.t) : bool :=
  match v, f with
  | VehicleType.NONE, _ | _, FuelType.NONE => false
  | _, _ => true
  end.

(** The grid-intensity multiplier of a region; an unlisted region has 1.0. *)
Definition spec_grid_multiplier (l : Location.t) : F :=
  match l with
  | Location.US => lit 1.0
  | Location.EU => lit 0.7
  | Location.CA => lit 0.5
  | Location.CN => lit 1.5
  | Location.IN => lit 1.4
  | Location.AU => lit 1.2
  | Location.OTHER => lit 1.0
  end.

(** The factor applied to the mileage: the electric base factor is scaled by
    the multiplier of the region. *)
Definition spec_emission_factor
  (v : VehicleType.t) (f : FuelType.t) (l : Location.t) : F :=
  match f with
  | FuelType.ELECTRIC => spec_base_factor v f * spec_grid_multiplier l
  | _ => spec_base_factor v f
  end.

(** [transport_subtotal] read without the heap: the factor is taken from the
    table above. *)
Definition transport_value (input_data : CarbonFootprintInput F) : result F :=
  let driven :=
    if decide (vehicle_type input_data ≠ VehicleType.NONE) then
      lit 0
      + miles_driven_weekly input_data * lit 52
        * spec_emission_factor (vehicle_type input_data)
            (vehicle_fuel_type input_data) (location input_data)
        / lit 1000
    else lit 0 in
  let with_transit :=
    driven + (public_transit_hours_weekly input_data * lit 52 / lit 100) * lit 0.05 in
  short ← float_of_int (flights_short_haul input_data);
  medium ← float_of_int (flights_medium_haul input_data);
  long ← float_of_int (flights_long_haul input_data);
  mret (with_transit + (short * lit 0.15 + medium * lit 0.4 + long * lit 1.5)).

(** [calculate_carbon_footprint] read without the heap. *)
Definition footprint (input_data : CarbonFootprintInput F)
  : result (CarbonFootprintResult F) :=
  transport ← transport_value input_data;
  home ← home_subtotal input_data;
  food ← food_subtotal input_data;
  consumer ← consumer_subtotal input_data;
  mret {| total_carbon_footprint := round2 (transport + home + food + consumer);
          transport_emissions := round2 transport;
          home_emissions := round2 home;
          food_emissions := round2 food;
          consumer_emissions := round2 consumer |}.

End Formulas.

(** The transport subtotal as the specification states it, over exact
    numbers: the driving term, the transit term and the flights term. *)
Definition spec_driving_term (i : CarbonFootprintInput Q) : Q :=
  if decide (vehicle_type i = VehicleType.NONE) then 0
  else
    miles_driven_weekly i * 52
    * spec_emission_factor (vehicle_type i) (vehicle_fuel_type i) (location i)
    / 1000.

Definition spec_transport (i : CarbonFootprintInput Q) : Q :=
  spec_driving_term i
  + (public_transit_hours_weekly i * 52 / 100) * 0.05
  + (inject_Z (flights_short_haul i) * 0.15
     + inject_Z (flights_medium_haul i) * 0.4
     + inject_Z (flights_long_haul i) * 1.5).

(** The distance between the reported total and the sum of the four reported
    subtotals. *)
Definition total_gap (r : CarbonFootprintResult Q) : Q :=
  Qabs (total_carbon_footprint r
        - (transport_emissions r + home_emissions r + food_emissions r
           + consumer_emissions r)).

(** ** Sample inputs *)

Section Samples.
Context {F : Type} `{PyFloat F}.

(** A household of two with a gasoline car driven 100 miles a week. *)
Definition household : CarbonFootprintInput F :=
  {| vehicle_type := VehicleType.CAR; vehicle_fuel_type := FuelType.GASOLINE;
     miles_driven_weekly := lit 100; fuel_efficiency_mpg := lit 30;
     public_transit_hours_weekly := lit 0;
     flights_short_haul := 0; flights_medium_haul := 0; flights_long_haul := 0;
     home_size_sqft := lit 1500; dwelling_type := DwellingType.TOWNHOUSE;
     num_residents := 2; heating_source := HeatingSource.NATURAL_GAS;
     electricity_kwh_monthly := lit 500; natural_gas_therms_monthly := lit 20;
     fuel_oil_gallons_monthly := lit 0; renewable_energy_percentage := lit 0;
     diet_type := DietType.AVERAGE; local_food_percentage := lit 0;
     food_waste_percentage := lit 0; meals_eaten_out_weekly := 3;
     new_clothes_items_yearly := 10; new_electronics_items_yearly := 2;
     recycling_rate := lit 50; single_use_plastic_level := UsageLevel.MEDIUM;
     water_consumption_level := WaterUsageLevel.MEDIUM;
     location := Location.US; income_level := IncomeLevel.MEDIUM |}.

(** The same household with another vehicle, fuel and weekly mileage. *)
Definition driving (v : VehicleType.t) (f : FuelType.t) (miles : F)
  : CarbonFootprintInput F :=
  {| vehicle_type := v; vehicle_fuel_type := f;
     miles_driven_weekly := miles; fuel_efficiency_mpg := lit 30;
     public_transit_hours_weekly := lit 0;
     flights_short_haul := 0; flights_medium_haul := 0; flights_long_haul := 0;
     home_size_sqft := lit 1500; dwelling_type := DwellingType.TOWNHOUSE;
     num_residents := 2; heating_source := HeatingSource.NATURAL_GAS;
     electricity_kwh_monthly := lit 500; natural_gas_therms_monthly := lit 20;
     fuel_oil_gallons_monthly := lit 0; renewable_energy_percentage := lit 0;
     diet_type := DietType.AVERAGE; local_food_percentage := lit 0;
     food_waste_percentage := lit 0; meals_eaten_out_weekly := 3;
     new_clothes_items_yearly := 10; new_electronics_items_yearly := 2;
     recycling_rate := lit 50; single_use_plastic_level := UsageLevel.MEDIUM;
     water_consumption_level := WaterUsageLevel.MEDIUM;
     location := Location.US; income_level := IncomeLevel.MEDIUM |}.

(** The same household with other inert fields. *)
Definition household_propane : CarbonFootprintInput F :=
  {| vehicle_type := VehicleType.CAR; vehicle_fuel_type := FuelType.GASOLINE;
     miles_driven_weekly := lit 100; fuel_efficiency_mpg := lit 12.5;
     public_transit_hours_weekly := lit 0;
     flights_short_haul := 0; flights_medium_haul := 0; flights_long_haul := 0;
     home_size_sqft := lit 1500; dwelling_type := DwellingType.TOWNHOUSE;
     num_residents := 2; heating_source := HeatingSource.PROPANE;
     electricity_kwh_monthly := lit 500; natural_gas_therms_monthly := lit 20;
     fuel_oil_gallons_monthly := lit 0; renewable_energy_percentage := lit 0;
     diet_type := DietType.AVERAGE; local_food_percentage := lit 0;
     food_waste_percentage := lit 0; meals_eaten_out_weekly := 3;
     new_clothes_items_yearly := 10; new_electronics_items_yearly := 2;
     recycling_rate := lit 50; single_use_plastic_level := UsageLevel.MEDIUM;
     water_consumption_level := WaterUsageLevel.MEDIUM;
     location := Location.US; income_level := IncomeLevel.MEDIUM |}.

(** The household with a number of residents and of short-haul flights. *)
Definition crowd (residents short_flights : Z) : CarbonFootprintInput F :=
  {| vehicle_type := VehicleType.CAR; vehicle_fuel_type := FuelType.GASOLINE;
     miles_driven_weekly := lit 100; fuel_efficiency_mpg := lit 30;
     public_transit_hours_weekly := lit 0;
     flights_short_haul := short_flights;
     flights_medium_haul := 0; flights_long_haul := 0;
     home_size_sqft := lit 1500; dwelling_type := DwellingType.TOWNHOUSE;
     num_residents := residents; heating_source := HeatingSource.NATURAL_GAS;
     electricity_kwh_monthly := lit 500; natural_gas_therms_monthly := lit 20;
     fuel_oil_gallons_monthly := lit 0; renewable_energy_percentage := lit 0;
     diet_type := DietType.AVERAGE; local_food_percentage := lit 0;
     food_waste_percentage := lit 0; meals_eaten_out_weekly := 3;
     new_clothes_items_yearly := 10; new_electronics_items_yearly := 2;
     recycling_rate := lit 50; single_use_plastic_level := UsageLevel.MEDIUM;
     water_consumption_level := WaterUsageLevel.MEDIUM;
     location := Location.US; income_level := IncomeLevel.MEDIUM |}.

(** A frugal single person without a vehicle: every subtotal lies a little
    above a multiple of 0.01. *)
Definition frugal : CarbonFootprintInput F :=
  {| vehicle_type := VehicleType.NONE; vehicle_fuel_type := FuelType.NONE;
     miles_driven_weekly := lit 0; fuel_efficiency_mpg := lit 0;
     public_transit_hours_weekly := lit 0.17;
     flights_short_haul := 0; flights_medium_haul := 0; flights_long_haul := 0;
     home_size_sqft := lit 1500; dwelling_type := DwellingType.TOWNHOUSE;
     num_residents := 1; heating_source := HeatingSource.ELECTRICITY;
     electricity_kwh_monthly := lit 1; natural_gas_therms_monthly := lit 0;
     fuel_oil_gallons_monthly := lit 0; renewable_energy_percentage := lit 0;
     diet_type := DietType.VEGAN; local_food_percentage := lit 0;
     food_waste_percentage := lit 1.3; meals_eaten_out_weekly := 0;
     new_clothes_items_yearly := 0; new_electronics_items_yearly := 0;
     recycling_rate := lit 20; single_use_plastic_level := UsageLevel.LOW;
     water_consumption_level := WaterUsageLevel.LOW;
     location := Location.US; income_level := IncomeLevel.MEDIUM |}.

End Samples.

(** The integer counts of a binary64 input lie below the magnitude at which
    CPython's conversion to float overflows (the weekly meals are divided by
    21 before they become a float). *)
Definition counts_in_float_range (i : CarbonFootprintInput float) : Prop :=
  (flights_short_haul i < overflow_threshold
   /\ flights_medium_haul i < overflow_threshold
   /\ flights_long_haul i < overflow_threshold
   /\ meals_eaten_out_weekly i < 21 * overflow_threshold
   /\ new_clothes_items_yearly i < overflow_threshold
   /\ new_electronics_items_yearly i < overflow_threshold)%Z.

(** ** More variations of an input, and the order of its failures *)

Section Variations.
Context {F : Type} `{PyFloat F}.

Definition with_miles_driven_weekly (i : CarbonFootprintInput F) (x : F)
  : CarbonFootprintInput F :=
  {| vehicle_type := vehicle_type i;
     vehicle_fuel_type := vehicle_fuel_type i;
     miles_driven_weekly := x;
     fuel_efficiency_mpg := fuel_efficiency_mpg i;
     public_transit_hours_weekly := public_transit_hours_weekly i;
     flights_short_haul := flights_short_haul i;
     flights_medium_haul := flights_medium_haul i;
     flights_long_haul := flights_long_haul i;
     home_size_sqft := home_size_sqft i;
     dwelling_type := dwelling_type i;
     num_residents := num_residents i;
     heating_source := heating_source i;
     electricity_kwh_monthly := electricity_kwh_monthly i;
     natural_gas_therms_monthly := natural_gas_therms_monthly i;
     fuel_oil_gallons_monthly := fuel_oil_gallons_monthly i;
     renewable_energy_percentage := renewable_energy_percentage i;
     diet_type := diet_type i;
     local_food_percentage := local_food_percentage i;
     food_waste_percentage := food_waste_percentage i;
     meals_eaten_out_weekly := meals_eaten_out_weekly i;
     new_clothes_items_yearly := new_clothes_items_yearly i;
     new_electronics_items_yearly := new_electronics_items_yearly i;
     recycling_rate := recycling_rate i;
     single_use_plastic_level := single_use_plastic_level i;
     water_consumption_level := water_consumption_level i;
     location := location i;
     income_level := income_level i |}.

Definition with_home_size_sqft (i : CarbonFootprintInput F) (x : F)
  : CarbonFootprintInput F :=
  {| vehicle_type := vehicle_type i;
     vehicle_fuel_type := vehicle_fuel_type i;
     miles_driven_weekly := miles_driven_weekly i;
     fuel_efficiency_mpg := fuel_efficiency_mpg i;
     public_transit_hours_weekly := public_transit_hours_weekly i;
     flights_short_haul := flights_short_haul i;
     flights_medium_haul := flights_medium_haul i;
     flights_long_haul := flights_long_haul i;
     home_size_sqft := x;
     dwelling_type := dwelling_type i;
     num_residents := num_residents i;
     heating_source := heating_source i;
     electricity_kwh_monthly := electricity_kwh_monthly i;
     natural_gas_therms_monthly := natural_gas_therms_monthly i;
     fuel_oil_gallons_monthly := fuel_oil_gallons_monthly i;
     renewable_energy_percentage := renewable_energy_percentage i;
     diet_type := diet_type i;
     local_food_percentage := local_food_percentage i;
     food_waste_percentage := food_waste_percentage i;
     meals_eaten_out_weekly := meals_eaten_out_weekly i;
     new_clothes_items_yearly := new_clothes_items_yearly i;
     new_electronics_items_yearly := new_electronics_items_yearly i;
     recycling_rate := recycling_rate i;
     single_use_plastic_level := single_use_plastic_level i;
     water_consumption_level := water_consumption_level i;
     location := location i;
     income_level := income_level i |}.

(** The first statement of the body that raises, in program order: the
    flight products of lines 183-185, the division of line 190, the division
    of line 248, the products of lines 256 and 260. *)
Definition first_failure (i : CarbonFootprintInput F) : option exn :=
  if overflows (inject_Z (flights_short_haul i))
     || overflows (inject_Z (flights_medium_haul i))
     || overflows (inject_Z (flights_long_haul i))
  then Some OverflowError
  else if (num_residents i =? 0)%Z then Some ZeroDivisionError
  else if overflows (inject_Z 1 / inject_Z (num_residents i))
          || overflows (inject_Z (meals_eaten_out_weekly i) / inject_Z 21)
          || overflows (inject_Z (new_clothes_items_yearly i))
          || overflows (inject_Z (new_electronics_items_yearly i))
  then Some OverflowError
  else None.

End Variations.

(** ** The class of an exception, and two more sample inputs *)

(** The builtin class each exception of the body derives from, in Python's
    exception hierarchy.  None of them is a [ValueError], the class that
    pydantic's validation errors derive from. *)
Inductive exn_base := ArithmeticError | LookupError.

Definition base_class (e : exn) : exn_base :=
  match e with
  | ZeroDivisionError | OverflowError => ArithmeticError
  | KeyError => LookupError
  end.

Section MoreSamples.
Context {F : Type} `{PyFloat F}.

(** The household on a low income that buys no new clothes or electronics. *)
Definition thrifty : CarbonFootprintInput F :=
  {| vehicle_type := VehicleType.CAR; vehicle_fuel_type := FuelType.GASOLINE;
     miles_driven_weekly := lit 100; fuel_efficiency_mpg := lit 30;
     public_transit_hours_weekly := lit 0;
     flights_short_haul := 0; flights_medium_haul := 0; flights_long_haul := 0;
     home_size_sqft := lit 1500; dwelling_type := DwellingType.TOWNHOUSE;
     num_residents := 2; heating_source := HeatingSource.NATURAL_GAS;
     electricity_kwh_monthly := lit 500; natural_gas_therms_monthly := lit 20;
     fuel_oil_gallons_monthly := lit 0; renewable_energy_percentage := lit 0;
     diet_type := DietType.AVERAGE; local_food_percentage := lit 0;
     food_waste_percentage := lit 0; meals_eaten_out_weekly := 3;
     new_clothes_items_yearly := 0; new_electronics_items_yearly := 0;
     recycling_rate := lit 50; single_use_plastic_level := UsageLevel.MEDIUM;
     water_consumption_level := WaterUsageLevel.MEDIUM;
     location := Location.US; income_level := IncomeLevel.LOW |}.

(** The household with a car of fuel category [none] and a number of
    short-haul flights. *)
Definition unfuelled_car (short_flights : Z) : CarbonFootprintInput F :=
  {| vehicle_type := VehicleType.CAR; vehicle_fuel_type := FuelType.NONE;
     miles_driven_weekly := lit 100; fuel_efficiency_mpg := lit 30;
     public_transit_hours_weekly := lit 0;
     flights_short_haul := short_flights;
     flights_medium_haul := 0; flights_long_haul := 0;
     home_size_sqft := lit 1500; dwelling_type := DwellingType.TOWNHOUSE;
     num_residents := 2; heating_source := HeatingSource.NATURAL_GAS;
     electricity_kwh_monthly := lit 500; natural_gas_therms_monthly := lit 20;
     fuel_oil_gallons_monthly := lit 0; renewable_energy_percentage := lit 0;
     diet_type := DietType.AVERAGE; local_food_percentage := lit 0;
     food_waste_percentage := lit 0; meals_eaten_out_weekly := 3;
     new_clothes_items_yearly := 10; new_electronics_items_yearly := 2;
     recycling_rate := lit 50; single_use_plastic_level := UsageLevel.MEDIUM;
     water_consumption_level := WaterUsageLevel.MEDIUM;
     location := Location.US; income_level := IncomeLevel.MEDIUM |}.

End MoreSamples.

(** ** Proof steps *)

(** Evaluate a lookup in a dict display of the goal. *)
Ltac eval_dict_lookup :=
  match goal with
  | |- context [@lookup ?K ?V (gmap ?K' ?V') ?I ?k ?d] =>
      let r := eval vm_compute in (@lookup K V (gmap K' V') I k d) in
      change (@lookup K V (gmap K' V') I k d) with r
  end.

(** Expose the binds and the heap operations of a computation. *)
Ltac unfold_monad :=
  unfold mbind, M_bind, result_bind, alloc, lift, deref, store, mret, M_ret,
    result_ret, getitem, get.

(** * Properties *)

(** ** The heap: every call works on dicts of its own *)

Section HeapFacts.
Context {A : Type}.

Lemma heap_lookup_fresh (h l : list A) (k : nat) :
  (h ++ l) !! (length h + k)%nat = l !! k.
Proof. rewrite lookup_app_r by lia. f_equal. lia. Qed.

Lemma heap_lookup_fresh_0 (h l : list A) : (h ++ l) !! length h = l !! 0%nat.
Proof. rewrite <- (heap_lookup_fresh h l 0). f_equal. lia. Qed.

Lemma heap_insert_fresh_0 (h l : list A) (x : A) :
  <[length h := x]> (h ++ l) = h ++ <[0%nat := x]> l.
Proof. rewrite <- (insert_app_r h l 0 x). f_equal. lia. Qed.

End HeapFacts.

Section Generic.
Context {F : Type} `{PyFloat F}.
Local Open Scope py_scope.

Lemma electricity_factors_get (l : Location.t) :
  get ({[ Location.US := lit 1.0; Location.EU := lit 0.7; Location.CA := lit 0.5;
          Location.CN := lit 1.5; Location.IN := lit 1.4; Location.AU := lit 1.2 ]}
        : gmap Location.t F) l (lit 1.0) = spec_grid_multiplier l.
Proof. destruct l; reflexivity. Qed.

Lemma vehicle_dict_lookup (a b c : nat) (v : VehicleType.t) :
  ({[ VehicleType.CAR := a; VehicleType.SUV := b; VehicleType.MOTORCYCLE := c ]}
     : gmap VehicleType.t nat) !! v
  = match v with
    | VehicleType.CAR => Some a
    | VehicleType.SUV => Some b
    | VehicleType.MOTORCYCLE => Some c
    | VehicleType.NONE => None
    end.
Proof. destruct v; reflexivity. Qed.

(** Lines 132-168 on any heap: the lookup never raises for a vehicle, its
    value is the one of the specification's table, and the heap only grows. *)
Lemma vehicle_emission_factor_run (i : CarbonFootprintInput F) (h : heap F) :
  vehicle_type i <> VehicleType.NONE ->
  exists l,
    vehicle_emission_factor i h
    = (Return (spec_emission_factor (vehicle_type i) (vehicle_fuel_type i) (location i)),
       h ++ l).
Proof.
  intros Hv. unfold vehicle_emission_factor.
  fold (get ({[ Location.US := lit 1.0; Location.EU := lit 0.7; Location.CA := lit 0.5;
                Location.CN := lit 1.5; Location.IN := lit 1.4; Location.AU := lit 1.2 ]}
              : gmap Location.t F) (location i) (lit 1.0)).
  set (m := get _ (location i) (lit 1.0)).
  assert (Hm : m = spec_grid_multiplier (location i)) by apply electricity_factors_get.
  clearbody m.
  unfold_monad.
  rewrite !vehicle_dict_lookup, !length_app, <- !app_assoc, <- !Nat.add_assoc.
  cbn [length app Nat.add].
  destruct (vehicle_type i); try done.
  all: destruct (vehicle_fuel_type i); case_decide; try done.
  all: cbn [spec_emission_factor spec_base_factor]; rewrite <- ?Hm; clear Hm.
  all: repeat first
         [ rewrite heap_lookup_fresh_0 | rewrite heap_lookup_fresh
         | rewrite heap_insert_fresh_0 | rewrite insert_app_r
         | progress cbn [lookup list_lookup insert list_insert default
                         from_option id fst snd]
         | eval_dict_lookup ].
  all: eexists; reflexivity.
Qed.

Lemma transport_subtotal_run (i : CarbonFootprintInput F) (h : heap F) :
  exists l, transport_subtotal i h = (transport_value i, h ++ l).
Proof.
  unfold transport_subtotal, transport_value.
  unfold mbind at 1. unfold M_bind at 1.
  case_decide as Hv.
  - destruct (vehicle_emission_factor_run i h Hv) as [l E].
    unfold mbind at 1. unfold M_bind at 1. rewrite E.
    exists l. unfold_monad. repeat eval_dict_lookup. reflexivity.
  - exists []. rewrite app_nil_r.
    unfold_monad. repeat eval_dict_lookup. reflexivity.
Qed.

Lemma calculate_run (i : CarbonFootprintInput F) (h : heap F) :
  exists l, calculate_carbon_footprint i h = (footprint i, h ++ l).
Proof.
  destruct (transport_subtotal_run i h) as [l E]. exists l.
  unfold calculate_carbon_footprint, footprint.
  unfold mbind at 1. unfold M_bind at 1. rewrite E.
  destruct (transport_value i) as [t|e]; [|reflexivity].
  unfold_monad.
  destruct (home_subtotal i); [|reflexivity].
  destruct (food_subtotal i); [|reflexivity].
  destruct (consumer_subtotal i); reflexivity.
Qed.

(** What a call returns or raises does not depend on the heap it starts
    from. *)
Lemma calculate_outcome (i : CarbonFootprintInput F) (h : heap F) :
  outcome (calculate_carbon_footprint i) h = footprint i.
Proof.
  unfold outcome. destruct (calculate_run i h) as [l ->]. reflexivity.
Qed.

Lemma transport_outcome (i : CarbonFootprintInput F) (h : heap F) :
  outcome (transport_subtotal i) h = transport_value i.
Proof.
  unfold outcome. destruct (transport_subtotal_run i h) as [l ->]. reflexivity.
Qed.

End Generic.

(** ** Results for every float instance *)

Section Claims.
Context {F : Type} `{PyFloat F}.
Local Open Scope py_scope.

Lemma heap_after_app (calls : list (CarbonFootprintInput F)) (h : heap F) :
  exists l, heap_after calls h = h ++ l.
Proof.
  revert h. induction calls as [|c calls IH]; intros h.
  - exists []. now rewrite app_nil_r.
  - cbn [heap_after fold_left].
    destruct (calculate_run c h) as [l ->]. cbn [snd].
    destruct (IH (h ++ l)) as [l' E]. unfold heap_after in E. rewrite E.
    exists (l ++ l'). now rewrite app_assoc.
Qed.

(** The calls of a session are served as if each were the first one. *)
Lemma serve_footprint (calls : list (CarbonFootprintInput F)) (h : heap F) :
  serve calls h = map footprint calls.
Proof.
  revert h. induction calls as [|c calls IH]; intros h; [reflexivity|].
  cbn [serve map]. destruct (calculate_run c h) as [l ->].
  now rewrite IH.
Qed.

(** C7: the scaling of the electric factor by the region multiplier is
    written to a dict that the call itself has built, so it never reaches a
    later call: after any sequence of earlier calls, from any heap, a call
    returns or raises exactly what it does as the first call on the empty
    heap, and so does the last call of a session. *)
Theorem call_independent_of_earlier_calls
  (earlier : list (CarbonFootprintInput F)) (i : CarbonFootprintInput F)
  (h : heap F) :
  outcome (calculate_carbon_footprint i) (heap_after earlier h)
  = outcome (calculate_carbon_footprint i) []
  /\ serve (earlier ++ [i]) h
     = serve earlier h ++ [outcome (calculate_carbon_footprint i) []].
Proof.
  split.
  - destruct (heap_after_app earlier h) as [l ->].
    destruct (calculate_run i (h ++ l)) as [l1 E1].
    destruct (calculate_run i []) as [l2 E2].
    unfold outcome. rewrite E1, E2. reflexivity.
  - rewrite !serve_footprint, map_app, calculate_outcome. reflexivity.
Qed.

(** C9: two inputs that differ only in [fuel_efficiency_mpg] and
    [heating_source] give the same outcome, hence identical result
    records. *)
Theorem mpg_and_heating_inert (i j : CarbonFootprintInput F) (h : heap F) :
  differ_only_in_mpg_and_heating i j ->
  outcome (calculate_carbon_footprint i) h
  = outcome (calculate_carbon_footprint j) h.
Proof.
  intros D. rewrite !calculate_outcome.
  destruct i, j. unfold differ_only_in_mpg_and_heating in D. cbn in D.
  destruct_and!. subst. reflexivity.
Qed.

(** C10: without a vehicle, two inputs that differ only in
    [miles_driven_weekly] and [vehicle_fuel_type] give the same outcome. *)
Theorem miles_and_fuel_unused_without_vehicle
  (i j : CarbonFootprintInput F) (h : heap F) :
  vehicle_type i = VehicleType.NONE ->
  differ_only_in_miles_and_fuel i j ->
  outcome (calculate_carbon_footprint i) h
  = outcome (calculate_carbon_footprint j) h.
Proof.
  intros Hv D. rewrite !calculate_outcome.
  destruct i, j. unfold differ_only_in_miles_and_fuel in D. cbn in D, Hv.
  destruct_and!. subst. reflexivity.
Qed.

Lemma float_of_int_returns (n : Z) :
  overflows (inject_Z n) = false -> float_of_int n = Return (lit (inject_Z n)).
Proof. unfold float_of_int. now intros ->. Qed.

Lemma int_truediv_returns (a b : Z) :
  b <> 0%Z -> overflows (inject_Z a / inject_Z b) = false ->
  int_truediv a b = Return (lit (inject_Z a / inject_Z b)).
Proof.
  intros Hb Ho. unfold int_truediv.
  destruct (Z.eqb_spec b 0); [done|]. now rewrite Ho.
Qed.

Lemma int_truediv_zero (a : Z) : int_truediv a 0 = Raise ZeroDivisionError.
Proof. reflexivity. Qed.

(** A call returns a record as soon as the residents are not zero and every
    integer converts. *)
Lemma footprint_returns (i : CarbonFootprintInput F) :
  num_residents i <> 0%Z -> ints_convert i = true ->
  exists r, footprint i = Return r.
Proof.
  intros Hr Hc. unfold ints_convert in Hc.
  repeat (apply andb_prop in Hc; destruct Hc as [Hc ?]).
  repeat match goal with
         | X : negb _ = true |- _ => apply negb_true_iff in X
         end.
  unfold footprint, transport_value, home_subtotal, food_subtotal,
    consumer_subtotal.
  rewrite !float_of_int_returns by assumption.
  rewrite !int_truediv_returns by (assumption || done).
  eexists. reflexivity.
Qed.

End Claims.

Section Inversion.

(** A returned record holds the rounded subtotals and the rounded sum of the
    unrounded ones. *)
Lemma footprint_inv {F : Type} `{PyFloat F}
  (i : CarbonFootprintInput F) (r : CarbonFootprintResult F) :
  footprint i = Return r ->
  exists t h f c,
    transport_value i = Return t /\ home_subtotal i = Return h
    /\ food_subtotal i = Return f /\ consumer_subtotal i = Return c
    /\ r = {| total_carbon_footprint := round2 (add (add (add t h) f) c);
              transport_emissions := round2 t;
              home_emissions := round2 h;
              food_emissions := round2 f;
              consumer_emissions := round2 c |}.
Proof.
  unfold footprint. intros E.
  destruct (transport_value i) as [t|]; [|done].
  destruct (home_subtotal i) as [h|]; [|done].
  destruct (food_subtotal i) as [f|]; [|done].
  destruct (consumer_subtotal i) as [c|]; [|done].
  exists t, h, f, c. repeat split. now inversion E.
Qed.

End Inversion.

(** ** The transport subtotal over exact arithmetic *)

Section ExactFormulas.
Local Open Scope Q_scope.

(** Over exact numbers no conversion overflows. *)
Lemma exact_float_of_int (n : Z) : float_of_int (F:=Q) n = Return (inject_Z n).
Proof. reflexivity. Qed.

Lemma exact_transport_value (i : CarbonFootprintInput Q) :
  exists t, transport_value i = Return t /\ t == spec_transport i.
Proof.
  unfold transport_value. rewrite !exact_float_of_int.
  eexists. split; [reflexivity|].
  unfold spec_transport, spec_driving_term.
  set (e := spec_emission_factor _ _ _).
  cbn [add sub mul div lit Exact].
  destruct (decide (vehicle_type i = VehicleType.NONE)) as [E|E];
    destruct (decide (vehicle_type i ≠ VehicleType.NONE)) as [E'|E'];
    try (exfalso; apply E'; exact E); try (exfalso; apply E; exact E').
  all: field.
Qed.

Lemma exact_transport_of_location (i : CarbonFootprintInput Q) (l : Location.t) :
  vehicle_type i <> VehicleType.NONE ->
  vehicle_fuel_type i = FuelType.ELECTRIC ->
  exists t,
    transport_value (with_location i l) = Return t
    /\ t == miles_driven_weekly i * 52
            * (spec_base_factor (vehicle_type i) FuelType.ELECTRIC
               * spec_grid_multiplier l) / 1000
          + (public_transit_hours_weekly i * 52 / 100) * 0.05
          + (inject_Z (flights_short_haul i) * 0.15
             + inject_Z (flights_medium_haul i) * 0.4
             + inject_Z (flights_long_haul i) * 1.5).
Proof.
  intros Hv Hf.
  destruct (exact_transport_value (with_location i l)) as (t & Et & Ht).
  exists t. split; [exact Et|]. rewrite Ht.
  unfold spec_transport, spec_driving_term.
  cbn [with_location vehicle_type vehicle_fuel_type miles_driven_weekly
       public_transit_hours_weekly flights_short_haul flights_medium_haul
       flights_long_haul location].
  rewrite Hf. destruct (decide (vehicle_type i = VehicleType.NONE)); [done|].
  reflexivity.
Qed.

End ExactFormulas.

(** ** Where a call returns: the range of the integer counts *)

Section Totality.
Local Open Scope Z_scope.

Lemma overflow_threshold_large : 21 < overflow_threshold.
Proof. reflexivity. Qed.

Lemma binary64_int_in_range (n : Z) :
  0 <= n < overflow_threshold -> overflows (F:=float) (inject_Z n) = false.
Proof.
  intros Hn. cbn [overflows Binary64]. unfold overflows_binary64.
  apply not_true_iff_false. rewrite Qle_bool_iff.
  unfold Qle, Qabs, inject_Z. cbn [Qnum Qden]. lia.
Qed.

Lemma binary64_reciprocal_in_range (n : Z) :
  n <> 0 -> overflows (F:=float) (inject_Z 1 / inject_Z n) = false.
Proof.
  intros Hn. cbn [overflows Binary64]. unfold overflows_binary64.
  apply not_true_iff_false. rewrite Qle_bool_iff.
  pose proof overflow_threshold_large as HT.
  destruct n as [|p|p]; [done| |];
    unfold Qle, Qabs, Qdiv, Qmult, Qinv, inject_Z; cbn [Qnum Qden Z.abs Z.mul Pos.mul];
    nia.
Qed.

Lemma binary64_meals_in_range (n : Z) :
  0 <= n < 21 * overflow_threshold ->
  overflows (F:=float) (inject_Z n / inject_Z 21) = false.
Proof.
  intros Hn. cbn [overflows Binary64]. unfold overflows_binary64.
  apply not_true_iff_false. rewrite Qle_bool_iff.
  unfold Qle, Qabs, Qdiv, Qmult, Qinv, inject_Z. cbn [Qnum Qden]. lia.
Qed.

Lemma binary64_ints_convert (i : CarbonFootprintInput float) :
  valid_input i = true -> counts_in_float_range i -> ints_convert i = true.
Proof.
  intros Hv (H1 & H2 & H3 & H4 & H5 & H6).
  unfold valid_input in Hv.
  repeat (apply andb_prop in Hv; destruct Hv as [Hv ?]).
  repeat match goal with
         | X : (_ <=? _) = true |- _ => apply Z.leb_le in X
         end.
  unfold ints_convert.
  rewrite !binary64_int_in_range, binary64_reciprocal_in_range,
    binary64_meals_in_range by lia.
  reflexivity.
Qed.

(** C3, as amended: in binary64 a call returns a record and does not raise,
    from any heap, on every input that satisfies the field constraints and
    whose integer counts are within the range of a float; the dicts that
    existed before the call are left as they were, the call only adds dicts
    of its own. *)
Theorem returns_on_valid_input_in_float_range
  (i : CarbonFootprintInput float) (h : heap float) :
  valid_input i = true -> counts_in_float_range i ->
  exists r l, calculate_carbon_footprint i h = (Return r, h ++ l).
Proof.
  intros Hv Hc.
  destruct (calculate_run i h) as [l E].
  destruct (footprint_returns i) as [r Er].
  - unfold valid_input in Hv.
    repeat (apply andb_prop in Hv; destruct Hv as [Hv ?]).
    match goal with X : (1 <=? _) = true |- _ => apply Z.leb_le in X end. lia.
  - now apply binary64_ints_convert.
  - exists r, l. now rewrite E, Er.
Qed.

End Totality.

(** ** Concrete runs *)

Section Runs.

(** [round(x, 2)] in binary64 on ties and near them: 0.125 is a tie and goes
    to the even 0.12; 2.675 is stored below the tie and goes down; a small
    negative number rounds to the negative zero. *)
Example round2_binary64_samples :
  round2_binary64 0.125%float = lit 0.12
  /\ round2_binary64 (lit 2.675) = lit 2.67
  /\ round2_binary64 (lit 0.375) = lit 0.38
  /\ round2_binary64 (lit (-0.004)) = PrimFloat.neg_zero
  /\ round2_binary64 PrimFloat.infinity = PrimFloat.infinity.
Proof. vm_compute. repeat split; reflexivity. Qed.

(** The conversion of an integer succeeds up to the largest finite float and
    overflows from the threshold on. *)
Example float_of_int_at_the_threshold :
  float_of_int (F:=float) (overflow_threshold - 1) = Return (lit (2 ^ 1024 - 2 ^ 971))
  /\ nearest (inject_Z overflow_threshold) = PrimFloat.infinity
  /\ float_of_int (F:=float) overflow_threshold = Raise OverflowError.
Proof. vm_compute. repeat split; reflexivity. Qed.

(** The scaled electric factor does stay in the heap after the call that
    wrote it: 0.1 x 1.5 for a car in region CN. *)
Example scaled_factor_stays_in_heap :
  (heap_after (F:=Q)
     [with_location (driving VehicleType.CAR FuelType.ELECTRIC 100%Q) Location.CN] [])
    !! 0%nat ≫= (fun d => d !! FuelType.ELECTRIC)
  = Some (0.1 * 1.5)%Q.
Proof. vm_compute. reflexivity. Qed.

(** In binary64 the recycling factor of line 263 is the float 0.85 at rate
    100 and the float 1 at rate 0. *)
Example recycling_factor_binary64 :
  sub (lit 1) (mul (div (lit 100) (lit 100)) (lit 0.15)) = lit (F:=float) 0.85
  /\ sub (lit 1) (mul (div (lit 0) (lit 100)) (lit 0.15)) = lit (F:=float) 1.
Proof. vm_compute. split; reflexivity. Qed.


(** C3 fails as stated: 2^1024 short-haul flights are an integer >= 0, and
    the product of line 183 raises [OverflowError] on it. *)
Lemma huge_count_overflows :
  valid_input (F:=float) (crowd 2 (2 ^ 1024)) = true
  /\ outcome (calculate_carbon_footprint (F:=float) (crowd 2 (2 ^ 1024))) []
     = Raise OverflowError.
Proof. split; vm_compute; reflexivity. Qed.

Lemma returns_on_valid_input_in_float_range_witness :
  valid_input (F:=float) household = true
  /\ counts_in_float_range household
  /\ exists r l,
       calculate_carbon_footprint (F:=float) household [] = (Return r, [] ++ l).
Proof.
  split; [reflexivity|]. split; [repeat split|].
  apply (returns_on_valid_input_in_float_range household []);
    [reflexivity | repeat split].
Defined.


Lemma mpg_and_heating_inert_witness :
  differ_only_in_mpg_and_heating (F:=float) household household_propane
  /\ outcome (calculate_carbon_footprint (F:=float) household) []
     = outcome (calculate_carbon_footprint household_propane) [].
Proof.
  split; [repeat split|].
  apply (mpg_and_heating_inert household household_propane []). repeat split.
Defined.

Lemma miles_and_fuel_unused_without_vehicle_witness :
  outcome (calculate_carbon_footprint (F:=float)
             (driving VehicleType.NONE FuelType.NONE (lit 0))) []
  = outcome (calculate_carbon_footprint
               (driving VehicleType.NONE FuelType.GASOLINE (lit 250))) [].
Proof.
  apply (miles_and_fuel_unused_without_vehicle
           (driving VehicleType.NONE FuelType.NONE (lit 0))
           (driving VehicleType.NONE FuelType.GASOLINE (lit 250)) []);
    [reflexivity | repeat split].
Defined.

End Runs.

(** * Further properties of the calculator *)

Section FailureOrder.
Context {F : Type} `{PyFloat F}.

Lemma footprint_first_failure (i : CarbonFootprintInput F) :
  match first_failure i with
  | Some e => footprint i = Raise e
  | None => exists r, footprint i = Return r
  end.
Proof.
  unfold first_failure, footprint, transport_value, home_subtotal,
    food_subtotal, consumer_subtotal, float_of_int, int_truediv.
  destruct (overflows (inject_Z (flights_short_haul i))); [reflexivity|].
  destruct (overflows (inject_Z (flights_medium_haul i))); [reflexivity|].
  destruct (overflows (inject_Z (flights_long_haul i))); [reflexivity|].
  cbn [orb].
  destruct (num_residents i =? 0)%Z; [reflexivity|].
  destruct (overflows (inject_Z 1 / inject_Z (num_residents i))); [reflexivity|].
  change (21 =? 0)%Z with false. cbn iota.
  destruct (overflows (inject_Z (meals_eaten_out_weekly i) / inject_Z 21));
    [reflexivity|].
  destruct (overflows (inject_Z (new_clothes_items_yearly i))); [reflexivity|].
  destruct (overflows (inject_Z (new_electronics_items_yearly i)));
    [reflexivity|].
  eexists. reflexivity.
Qed.

(** The outcome of a call is decided by the first failing statement in
    program order: an overflowing flight count wins over zero residents,
    zero residents win over an overflow of the meals, the clothes or the
    electronics; without any of them the call returns. *)
Theorem outcome_by_first_failure (i : CarbonFootprintInput F) (h : heap F) :
  match first_failure i with
  | Some e => outcome (calculate_carbon_footprint i) h = Raise e
  | None => exists r, outcome (calculate_carbon_footprint i) h = Return r
  end.
Proof. rewrite calculate_outcome. apply footprint_first_failure. Qed.

(** No call raises [KeyError]: the subscripts of lines 183-185 and the
    in-place update of line 166 always find their key. *)
Theorem never_raises_key_error (i : CarbonFootprintInput F) (h : heap F) :
  outcome (calculate_carbon_footprint i) h <> Raise KeyError.
Proof.
  rewrite calculate_outcome.
  pose proof (footprint_first_failure i) as P.
  destruct (first_failure i) as [e|] eqn:E.
  - rewrite P. unfold first_failure in E.
    repeat match type of E with
           | (if ?b then _ else _) = _ => destruct b
           end; inversion E; discriminate.
  - destruct P as [r ->]. discriminate.
Qed.

(** An unlisted region is treated as the US throughout: the two defaults,
    1.0 for the electric multiplier and 0.0004 for the grid factor, are the
    US entries. *)
Theorem other_region_as_us (i : CarbonFootprintInput F) (h : heap F) :
  outcome (calculate_carbon_footprint (with_location i Location.OTHER)) h
  = outcome (calculate_carbon_footprint (with_location i Location.US)) h.
Proof.
  rewrite !calculate_outcome.
  unfold footprint, transport_value, home_subtotal, food_subtotal,
    consumer_subtotal, get.
  cbn [with_location vehicle_type vehicle_fuel_type miles_driven_weekly
       public_transit_hours_weekly flights_short_haul flights_medium_haul
       flights_long_haul home_size_sqft dwelling_type num_residents
       electricity_kwh_monthly natural_gas_therms_monthly
       fuel_oil_gallons_monthly renewable_energy_percentage diet_type
       local_food_percentage food_waste_percentage meals_eaten_out_weekly
       new_clothes_items_yearly new_electronics_items_yearly recycling_rate
       single_use_plastic_level water_consumption_level location income_level].
  replace (spec_emission_factor (vehicle_type i) (vehicle_fuel_type i) Location.OTHER)
    with (spec_emission_factor (vehicle_type i) (vehicle_fuel_type i) Location.US)
    by (destruct (vehicle_fuel_type i); reflexivity).
  reflexivity.
Qed.

(** The region enters the transport subtotal through the electric factor
    only: without a vehicle, or with a fuel other than electric, the
    unrounded transport subtotal is the same in every region. *)
Theorem transport_region_free_unless_electric
  (i : CarbonFootprintInput F) (l l' : Location.t) (h : heap F) :
  vehicle_type i = VehicleType.NONE \/ vehicle_fuel_type i <> FuelType.ELECTRIC ->
  outcome (transport_subtotal (with_location i l)) h
  = outcome (transport_subtotal (with_location i l')) h.
Proof.
  intros Hc. rewrite !transport_outcome. unfold transport_value.
  cbn [with_location vehicle_type vehicle_fuel_type miles_driven_weekly
       public_transit_hours_weekly flights_short_haul flights_medium_haul
       flights_long_haul location].
  destruct Hc as [Hv|Hf].
  - rewrite Hv. reflexivity.
  - destruct (vehicle_fuel_type i); try done; reflexivity.
Qed.

End FailureOrder.

Section Binary64Failures.
Local Open Scope Z_scope.

Lemma binary64_int_out_of_range (n : Z) :
  overflow_threshold <= n -> overflows (F:=float) (inject_Z n) = true.
Proof.
  intros Hn. cbn [overflows Binary64]. unfold overflows_binary64.
  rewrite Qle_bool_iff.
  unfold Qle, Qabs, inject_Z. cbn [Qnum Qden]. lia.
Qed.

Lemma binary64_meals_out_of_range (n : Z) :
  21 * overflow_threshold <= n ->
  overflows (F:=float) (inject_Z n / inject_Z 21) = true.
Proof.
  intros Hn. cbn [overflows Binary64]. unfold overflows_binary64.
  rewrite Qle_bool_iff.
  unfold Qle, Qabs, Qdiv, Qmult, Qinv, inject_Z. cbn [Qnum Qden]. lia.
Qed.

(** In binary64 a valid input fails in one way only: when one of its integer
    counts is outside the range of a float, the call raises
    [OverflowError]. *)
Theorem valid_input_out_of_range_overflows
  (i : CarbonFootprintInput float) (h : heap float) :
  valid_input i = true -> ~ counts_in_float_range i ->
  outcome (calculate_carbon_footprint i) h = Raise OverflowError.
Proof.
  intros Hv Hc. rewrite calculate_outcome.
  pose proof (footprint_first_failure i) as P.
  unfold valid_input in Hv.
  repeat (apply andb_prop in Hv; destruct Hv as [Hv ?]).
  repeat match goal with
         | X : (_ <=? _) = true |- _ => apply Z.leb_le in X
         end.
  assert (E : first_failure i = Some OverflowError);
    [|now rewrite E in P].
  unfold first_failure.
  destruct (Z.eqb_spec (num_residents i) 0) as [E0|_]; [lia|].
  rewrite binary64_reciprocal_in_range by lia. cbn [orb].
  destruct (Z.lt_ge_cases (flights_short_haul i) overflow_threshold) as [L1|G];
    [|rewrite (binary64_int_out_of_range (flights_short_haul i)) by exact G;
      reflexivity].
  destruct (Z.lt_ge_cases (flights_medium_haul i) overflow_threshold) as [L2|G];
    [|rewrite (binary64_int_out_of_range (flights_medium_haul i)) by exact G;
      rewrite orb_true_r; reflexivity].
  destruct (Z.lt_ge_cases (flights_long_haul i) overflow_threshold) as [L3|G];
    [|rewrite (binary64_int_out_of_range (flights_long_haul i)) by exact G;
      rewrite orb_true_r; reflexivity].
  rewrite !binary64_int_in_range by lia. cbn [orb].
  destruct (Z.lt_ge_cases (meals_eaten_out_weekly i) (21 * overflow_threshold))
    as [L4|G];
    [|rewrite binary64_meals_out_of_range by exact G; reflexivity].
  destruct (Z.lt_ge_cases (new_clothes_items_yearly i) overflow_threshold)
    as [L5|G];
    [|rewrite (binary64_int_out_of_range (new_clothes_items_yearly i)) by exact G;
      rewrite orb_true_r; reflexivity].
  destruct (Z.lt_ge_cases (new_electronics_items_yearly i) overflow_threshold)
    as [L6|G];
    [|rewrite (binary64_int_out_of_range (new_electronics_items_yearly i))
        by exact G;
      rewrite orb_true_r; reflexivity].
  exfalso. apply Hc. repeat split; assumption.
Qed.

End Binary64Failures.

(** ** Rounding keeps the order, over exact arithmetic *)

Section ExactRounding.
Local Open Scope Q_scope.

Lemma round_half_even_between (q : Q) :
  (Qfloor q <= round_half_even q <= Qfloor q + 1)%Z.
Proof.
  unfold round_half_even.
  destruct (q - inject_Z (Qfloor q) ?= 1 # 2); [destruct (Z.even _)| |]; lia.
Qed.

Lemma round_half_even_mono (p q : Q) :
  p <= q -> (round_half_even p <= round_half_even q)%Z.
Proof.
  intros Hpq.
  pose proof (Qfloor_resp_le p q Hpq) as Hf.
  destruct (Z.eq_dec (Qfloor p) (Qfloor q)) as [E|N].
  - unfold round_half_even. rewrite E.
    destruct (p - inject_Z (Qfloor q) ?= 1 # 2) eqn:Cp;
      destruct (q - inject_Z (Qfloor q) ?= 1 # 2) eqn:Cq;
      try (destruct (Z.even (Qfloor q))); try lia;
      repeat match goal with
             | X : (_ ?= _) = Eq |- _ => apply Qeq_alt in X
             | X : (_ ?= _) = Lt |- _ => apply Qlt_alt in X
             | X : (_ ?= _) = Gt |- _ => apply Qgt_alt in X
             end; exfalso; lra.
  - pose proof (round_half_even_between p). pose proof (round_half_even_between q).
    lia.
Qed.

Lemma round2_exact_mono (p q : Q) : p <= q -> round2_exact p <= round2_exact q.
Proof.
  intros Hpq. unfold round2_exact, Qle. cbn [Qnum Qden].
  apply Z.mul_le_mono_nonneg_r; [lia|].
  apply round_half_even_mono. lra.
Qed.


End ExactRounding.

(** ** The cap on the home size, over exact arithmetic *)

Section ExactHome.
Local Open Scope Q_scope.

Lemma exact_int_truediv (a b : Z) :
  b <> 0%Z -> int_truediv (F:=Q) a b = Return (inject_Z a / inject_Z b).
Proof.
  intros Hb. unfold int_truediv.
  destruct (Z.eqb_spec b 0); [done|reflexivity].
Qed.

Lemma exact_py_min_cap (x : Q) : 2 <= x -> py_min x 2.0 == 2.
Proof.
  intros Hx. unfold py_min. cbn [ltb Exact].
  destruct (Qle_bool x 2.0) eqn:E; cbn [negb].
  - apply Qle_bool_iff in E. apply Qle_antisym; [|exact Hx].
    apply Qle_trans with 2.0; [exact E|discriminate].
  - reflexivity.
Qed.


End ExactHome.

(** ** Runs of the further properties *)

Section MoreRuns.

Lemma valid_input_out_of_range_overflows_witness :
  valid_input (F:=float) (crowd 2 (2 ^ 1024)) = true
  /\ ~ counts_in_float_range (crowd 2 (2 ^ 1024))
  /\ outcome (calculate_carbon_footprint (F:=float) (crowd 2 (2 ^ 1024))) []
     = Raise OverflowError.
Proof.
  assert (Hc : ~ counts_in_float_range (crowd 2 (2 ^ 1024))).
  { intros (Hs & _). revert Hs. vm_compute. discriminate. }
  split; [reflexivity|]. split; [exact Hc|].
  apply (valid_input_out_of_range_overflows (crowd 2 (2 ^ 1024)) []);
    [reflexivity | exact Hc].
Defined.

Lemma transport_region_free_unless_electric_witness :
  outcome (transport_subtotal (F:=float) (with_location household Location.CN)) []
  = outcome (transport_subtotal (with_location household Location.CA)) [].
Proof.
  apply (transport_region_free_unless_electric household Location.CN Location.CA []).
  right. discriminate.
Defined.



End MoreRuns.

(** ** The numeric claims, on the program's own arithmetic *)

Section ReportedValues.
Context {F : Type} `{PyFloat F}.
Local Open Scope py_scope.


(** C4, as amended: with [num_residents = 0] no record is returned.  The call
    raises [ZeroDivisionError] at line 190, or [OverflowError] at lines
    183-185 when a flight count does not convert; either way a Python
    [ArithmeticError] raised by the arithmetic, the function has no error of
    its own for an invalid input. *)
Theorem zero_residents_raise (i : CarbonFootprintInput F) (h : heap F) :
  num_residents i = 0%Z ->
  exists e,
    outcome (calculate_carbon_footprint i) h = Raise e
    /\ e = (if overflows (inject_Z (flights_short_haul i))
               || overflows (inject_Z (flights_medium_haul i))
               || overflows (inject_Z (flights_long_haul i))
            then OverflowError else ZeroDivisionError)
    /\ base_class e = ArithmeticError.
Proof.
  intros Hr. rewrite calculate_outcome.
  pose proof (footprint_first_failure i) as P. unfold first_failure in P.
  rewrite Hr in P. change (0 =? 0)%Z with true in P.
  destruct (overflows (inject_Z (flights_short_haul i))
            || overflows (inject_Z (flights_medium_haul i))
            || overflows (inject_Z (flights_long_haul i)));
    eexists; (split; [exact P|]); split; reflexivity.
Qed.

End ReportedValues.

Section Binary64Formulas.
Local Open Scope py_scope.

Lemma binary64_float_of_int (n : Z) :
  (0 <= n < overflow_threshold)%Z ->
  float_of_int (F:=float) n = Return (lit (inject_Z n)).
Proof. intros Hn. apply float_of_int_returns. now apply binary64_int_in_range. Qed.

Lemma binary64_transport_outcome
  (i : CarbonFootprintInput float) (h : heap float) :
  (0 <= flights_short_haul i < overflow_threshold)%Z ->
  (0 <= flights_medium_haul i < overflow_threshold)%Z ->
  (0 <= flights_long_haul i < overflow_threshold)%Z ->
  outcome (transport_subtotal i) h
  = Return ((if decide (vehicle_type i = VehicleType.NONE) then lit 0
             else lit 0
                  + miles_driven_weekly i * lit 52
                    * spec_emission_factor (vehicle_type i)
                        (vehicle_fuel_type i) (location i)
                    / lit 1000)
            + public_transit_hours_weekly i * lit 52 / lit 100 * lit 0.05
            + (lit (inject_Z (flights_short_haul i)) * lit 0.15
               + lit (inject_Z (flights_medium_haul i)) * lit 0.4
               + lit (inject_Z (flights_long_haul i)) * lit 1.5)).
Proof.
  intros Hs Hm Hl.
  destruct (transport_subtotal_run i h) as [l E].
  unfold outcome. rewrite E. cbn [fst]. unfold transport_value.
  rewrite !binary64_float_of_int by assumption.
  destruct (decide (vehicle_type i = VehicleType.NONE)) as [Hv|Hv];
    destruct (decide (vehicle_type i ≠ VehicleType.NONE)) as [Hv'|Hv'];
    try reflexivity; exfalso; tauto.
Qed.

(** C2, as amended: in binary64, when the three flight counts convert to a
    float, the unrounded transport subtotal is the float value of
    (driving + transit) + flights, every operation rounded in the order
    written: driving is 0.0 without a vehicle and otherwise
    0.0 + miles x 52 x factor / 1000, with the factor of the fixed table
    (0.33 for a missing pair, the electric one scaled by the region
    multiplier); transit is hours x 52 / 100 x 0.05; flights is
    short x 0.15 + medium x 0.4 + long x 1.5.  The driving term of a
    gasoline car at 100 miles a week is the float 1.716. *)
Theorem transport_subtotal_in_floats
  (i : CarbonFootprintInput float) (h : heap float) :
  (0 <= flights_short_haul i < overflow_threshold)%Z ->
  (0 <= flights_medium_haul i < overflow_threshold)%Z ->
  (0 <= flights_long_haul i < overflow_threshold)%Z ->
  outcome (transport_subtotal i) h
  = Return ((if decide (vehicle_type i = VehicleType.NONE) then lit 0
             else lit 0
                  + miles_driven_weekly i * lit 52
                    * spec_emission_factor (vehicle_type i)
                        (vehicle_fuel_type i) (location i)
                    / lit 1000)
            + public_transit_hours_weekly i * lit 52 / lit 100 * lit 0.05
            + (lit (inject_Z (flights_short_haul i)) * lit 0.15
               + lit (inject_Z (flights_medium_haul i)) * lit 0.4
               + lit (inject_Z (flights_long_haul i)) * lit 1.5))
  /\ lit 100 * lit 52 * lit 0.33 / lit 1000 = lit (F:=float) 1.716.
Proof.
  intros Hs Hm Hl. split; [|vm_compute; reflexivity].
  now apply binary64_transport_outcome.
Qed.



(** C8, as amended: in binary64, on a valid input with a vehicle (car, suv or
    motorcycle), a (vehicle, fuel) pair that is not an entry of the table,
    which is the fuel category [none], and integer counts within the range of
    a float, the lookup of line 168 does not raise and gives the default
    0.33, the call returns a record, and the reported transport value is the
    rounding of the subtotal computed with 0.33. *)
Theorem missing_pair_uses_default_factor
  (i : CarbonFootprintInput float) (h : heap float) :
  valid_input i = true -> counts_in_float_range i ->
  vehicle_type i <> VehicleType.NONE ->
  in_factor_table (vehicle_type i) (vehicle_fuel_type i) = false ->
  outcome (vehicle_emission_factor i) h = Return (lit 0.33)
  /\ exists r l,
       calculate_carbon_footprint i h = (Return r, h ++ l)
       /\ transport_emissions r
          = round2 (lit 0 + miles_driven_weekly i * lit 52 * lit 0.33 / lit 1000
                    + public_transit_hours_weekly i * lit 52 / lit 100 * lit 0.05
                    + (lit (inject_Z (flights_short_haul i)) * lit 0.15
                       + lit (inject_Z (flights_medium_haul i)) * lit 0.4
                       + lit (inject_Z (flights_long_haul i)) * lit 1.5)).
Proof.
  intros Hval Hc Hv Ht.
  assert (Hf : spec_emission_factor (vehicle_type i) (vehicle_fuel_type i)
                 (location i) = lit 0.33).
  { destruct (vehicle_type i), (vehicle_fuel_type i); done. }
  split.
  - unfold outcome. destruct (vehicle_emission_factor_run i h Hv) as [l ->].
    cbn [fst]. now rewrite Hf.
  - destruct (calculate_run i h) as [l E].
    destruct (footprint_returns i) as [r Er].
    + unfold valid_input in Hval.
      repeat (apply andb_prop in Hval; destruct Hval as [Hval ?]).
      match goal with X : (1 <=? _)%Z = true |- _ => apply Z.leb_le in X end. lia.
    + now apply binary64_ints_convert.
    + exists r, l. split; [now rewrite E, Er|].
      destruct (footprint_inv i r Er) as (t & hm & f & c & Et & _ & _ & _ & ->).
      cbn [transport_emissions]. f_equal.
      pose proof (transport_outcome i h) as Eo. rewrite Et in Eo.
      destruct Hc as (Hs & Hm & Hl & _).
      unfold valid_input in Hval.
      repeat (apply andb_prop in Hval; destruct Hval as [Hval ?]).
      repeat match goal with
             | X : (_ <=? _)%Z = true |- _ => apply Z.leb_le in X
             end.
      rewrite binary64_transport_outcome in Eo by lia.
      destruct (decide (vehicle_type i = VehicleType.NONE)) as [E0|_]; [done|].
      rewrite Hf in Eo. now injection Eo as <-.
Qed.

End Binary64Formulas.

(** ** Runs of the numeric claims *)

Section NumericRuns.
Local Open Scope py_scope.

(** In binary64 the two-decimal rounding no longer separates neighbouring
    floats at large magnitudes: at 10^16 weekly miles the reported total lies
    more than 0.02 above the sum of the reported subtotals. *)
Example gap_at_large_magnitude :
  valid_input (F:=float) (with_miles_driven_weekly household (lit 10000000000000000))
  = true
  /\ exists r,
       outcome (calculate_carbon_footprint (F:=float)
                  (with_miles_driven_weekly household (lit 10000000000000000))) []
       = Return r
       /\ ltb (lit 0.02)
              (total_carbon_footprint r
               - (transport_emissions r + home_emissions r + food_emissions r
                  + consumer_emissions r)) = true.
Proof.
  split; [reflexivity|]. eexists. split; vm_compute; reflexivity.
Qed.


(** C2 fails as stated: 2^1024 short-haul flights are an integer >= 0, and
    the transport block raises [OverflowError] on them, so the valid input
    has no transport subtotal. *)
Lemma transport_fails_on_huge_count :
  valid_input (F:=float) (crowd 2 (2 ^ 1024)) = true
  /\ outcome (transport_subtotal (F:=float) (crowd 2 (2 ^ 1024))) []
     = Raise OverflowError.
Proof. split; vm_compute; reflexivity. Qed.

Lemma transport_subtotal_in_floats_witness :
  outcome (transport_subtotal (F:=float) household) [] = Return (lit 1.716)
  /\ lit 100 * lit 52 * lit 0.33 / lit 1000 = lit (F:=float) 1.716.
Proof.
  assert (H0 : (0 <= 0 < overflow_threshold)%Z) by (split; [lia|reflexivity]).
  destruct (transport_subtotal_in_floats household [] H0 H0 H0) as [P Q].
  split; [|exact Q]. rewrite P. vm_compute. reflexivity.
Defined.

(** C4 fails as stated: with zero residents the call raises
    [ZeroDivisionError], and [OverflowError] when a flight count is too
    large as well; both are arithmetic errors, and the body has no error of
    an invalid-input kind to raise. *)
Lemma zero_residents_error_is_arithmetic :
  outcome (calculate_carbon_footprint (F:=float) (crowd 0 0)) []
  = Raise ZeroDivisionError
  /\ base_class ZeroDivisionError = ArithmeticError
  /\ outcome (calculate_carbon_footprint (F:=float) (crowd 0 (2 ^ 1024))) []
     = Raise OverflowError
  /\ base_class OverflowError = ArithmeticError.
Proof. repeat split; vm_compute; reflexivity. Qed.

Lemma zero_residents_raise_witness :
  exists e,
    outcome (calculate_carbon_footprint (F:=float) (crowd 0 0)) [] = Raise e
    /\ e = (if overflows (F:=float) (inject_Z (flights_short_haul (crowd (F:=float) 0 0)))
               || overflows (F:=float) (inject_Z (flights_medium_haul (crowd (F:=float) 0 0)))
               || overflows (F:=float) (inject_Z (flights_long_haul (crowd (F:=float) 0 0)))
            then OverflowError else ZeroDivisionError)
    /\ base_class e = ArithmeticError.
Proof. apply (zero_residents_raise (crowd 0 0) []). reflexivity. Defined.




(** C8 fails as stated, in two ways.  The car with fuel [none] and 2^1024
    short-haul flights is a valid input with a missing pair, and the call
    raises [OverflowError].  The input without a vehicle, with fuel gasoline
    and 100 miles a week, has a missing pair too, and its transport subtotal
    is 0: no factor is applied to the mileage, while 0.33 would give
    1.716. *)
Lemma missing_pair_call_can_fail :
  valid_input (F:=float) (unfuelled_car (2 ^ 1024)) = true
  /\ in_factor_table VehicleType.CAR FuelType.NONE = false
  /\ outcome (calculate_carbon_footprint (F:=float) (unfuelled_car (2 ^ 1024))) []
     = Raise OverflowError
  /\ valid_input (F:=float) (driving VehicleType.NONE FuelType.GASOLINE (lit 100)) = true
  /\ in_factor_table VehicleType.NONE FuelType.GASOLINE = false
  /\ outcome (transport_subtotal (F:=float)
       (driving VehicleType.NONE FuelType.GASOLINE (lit 100))) []
     = Return (lit 0).
Proof. repeat split; vm_compute; reflexivity. Qed.

Lemma missing_pair_uses_default_factor_witness :
  outcome (vehicle_emission_factor (F:=float) (unfuelled_car 0)) [] = Return (lit 0.33)
  /\ exists r l,
       calculate_carbon_footprint (F:=float) (unfuelled_car 0) [] = (Return r, [] ++ l)
       /\ transport_emissions r = lit 1.72.
Proof.
  destruct (missing_pair_uses_default_factor (unfuelled_car 0) [])
    as (P & r & l & E & T);
    [reflexivity | repeat split | discriminate | reflexivity |].
  split; [exact P|]. exists r, l. split; [exact E|].
  rewrite T. vm_compute. reflexivity.
Defined.

End NumericRuns.
